(** * A serverless request forwarder: [solve.js]

    The module [solve.js] exports one asynchronous function, [handler],
    which relays a mathematical question (a text and an optional image) to a
    generative-language service and hands the answer back.  This file embeds
    the handler in Rocq and proves the properties of its request/response
    contract.

    Layout:
    - [JS]: the JavaScript data the handler touches (JSON-decoded values,
      truthiness, property access, optional chaining, [substring],
      [JSON.stringify]);
    - [Eff]: a small monad for the handler's effects (exceptions, the console
      and the network, recorded in a chronological trace);
    - [Solve]: the handler itself, statement by statement;
    - the theorems. *)

From Stdlib Require Import String Ascii List Bool Arith Lia PrimFloat.
From Stdlib Require Import DecimalString.
Import ListNotations.
Local Open Scope string_scope.
Set Warnings "-register-all".

(* ================================================================== *)
(** ** JavaScript values *)
(* ================================================================== *)

Module JS.

(** A value as [JSON.parse] (or the absence of a property) produces it.
    A character of a [string] stands for one code unit of a JavaScript
    string; the handler never looks inside a code unit.  [VObj] lists the own
    properties of an object in enumeration order, each name once. *)
Inductive value : Type :=
| VUndefined
| VNull
| VBool (b : bool)
| VNum (x : float)
| VStr (s : string)
| VArr (elems : list value)
| VObj (props : list (string * value)).

(** [ToBoolean]: the test behind [!v], [a && b], [a || b] and [if (v)]. *)
Definition truthy (v : value) : bool :=
  match v with
  | VUndefined | VNull => false
  | VBool b => b
  | VNum x => negb (is_zero x || is_nan x)
  | VStr s => negb (s =? "")
  | VArr _ | VObj _ => true
  end.

(** [v === undefined || v === null]. *)
Definition nullish (v : value) : bool :=
  match v with
  | VUndefined | VNull => true
  | _ => false
  end.

(** [a && b] and [a || b] on already evaluated operands; the handler's
    right operands that may throw are sequenced in [Solve] instead. *)
Definition and_then (a b : value) : value := if truthy a then b else a.

Definition or_else (a b : value) : value := if truthy a then a else b.

(** What a thrown exception is: a [TypeError] raised by the language itself
    (reading a property of [null] or [undefined], calling what is not a
    function) or whatever the environment rejected a promise with. *)
Inductive exn : Type :=
| TypeError
| Rejected (reason : string).

Inductive completion (A : Type) : Type :=
| Normal (a : A)
| Throw (e : exn).
Arguments Normal {A} a.
Arguments Throw {A} e.

Fixpoint own_property (name : string) (props : list (string * value)) : value :=
  match props with
  | [] => VUndefined
  | (k, v) :: rest => if name =? k then v else own_property name rest
  end.

Definition index_name (n : nat) : string :=
  NilEmpty.string_of_uint (Nat.to_uint n).

(** [v.name] for a name that is no built-in member ([length] and the
    prototype methods are not data; the handler reads none of them through
    this function). *)
Definition get_member (v : value) (name : string) : completion value :=
  match v with
  | VUndefined | VNull => Throw TypeError
  | VObj props => Normal (own_property name props)
  | VBool _ | VNum _ | VStr _ | VArr _ => Normal VUndefined
  end.

(** [v[n]] for a non-negative integer [n]. *)
Definition get_element (v : value) (n : nat) : completion value :=
  match v with
  | VUndefined | VNull => Throw TypeError
  | VObj props => Normal (own_property (index_name n) props)
  | VArr elems => Normal (nth n elems VUndefined)
  | VStr s =>
      Normal match String.get n s with
             | Some c => VStr (String c EmptyString)
             | None => VUndefined
             end
  | VBool _ | VNum _ => Normal VUndefined
  end.

(** Optional chaining, [v?.name] and [v?.[n]]: [undefined] on a nullish
    base, the plain access otherwise.  It never throws. *)
Definition opt_member (v : value) (name : string) : value :=
  match get_member v name with
  | Normal w => w
  | Throw _ => VUndefined
  end.

Definition opt_element (v : value) (n : nat) : value :=
  match get_element v n with
  | Normal w => w
  | Throw _ => VUndefined
  end.

(** [s.substring(start, end)] for non-negative integer arguments: both are
    clamped to the length and swapped when out of order. *)
Definition substring (s : string) (start finish : nat) : string :=
  let len := String.length s in
  let lo := Nat.min (Nat.min start finish) len in
  let hi := Nat.min (Nat.max start finish) len in
  String.substring lo (hi - lo) s.

(** [v.substring(start, end)] on an arbitrary value: only a string has the
    method; on anything else the call throws a [TypeError]. *)
Definition call_substring (v : value) (start finish : nat) : completion string :=
  match v with
  | VStr s => Normal (substring s start finish)
  | _ => Throw TypeError
  end.

(** The text [JSON.stringify] emits, as its abstract syntax: the rendering of
    digits, escapes and punctuation is not modelled. *)
Inductive json_text : Type :=
| JNull
| JBool (b : bool)
| JNumber (x : float)
| JString (s : string)
| JArray (elems : list json_text)
| JObject (members : list (string * json_text)).

(** [JSON.stringify(v)]: [None] is the result [undefined].  A property whose
    value is [undefined] is left out, an [undefined] array element and a
    non-finite number become [null], and negative zero is written [0]. *)
Fixpoint JSON_stringify (v : value) : option json_text :=
  match v with
  | VUndefined => None
  | VNull => Some JNull
  | VBool b => Some (JBool b)
  | VNum x =>
      Some (if is_nan x || is_infinity x then JNull
            else if is_zero x then JNumber zero
            else JNumber x)
  | VStr s => Some (JString s)
  | VArr elems =>
      Some (JArray (map (fun e => match JSON_stringify e with
                                  | Some j => j
                                  | None => JNull
                                  end) elems))
  | VObj props =>
      Some (JObject (flat_map (fun p => let '(k, e) := p in
                                        match JSON_stringify e with
                                        | Some j => [(k, j)]
                                        | None => []
                                        end) props))
  end.

End JS.
Import JS.

(* ================================================================== *)
(** ** Effects *)
(* ================================================================== *)

Module Eff.

(** What [console.error] is given: values, or a caught exception. *)
Inductive log_arg : Type :=
| LogValue (v : value)
| LogError (e : exn).

(** The second argument of [fetch]. *)
Record RequestInit : Type := {
  init_method : string;
  init_headers : list (string * string);
  init_body : option json_text
}.

(** What the handler does to the world besides answering: a line on the
    error console, or a call of [fetch]. *)
Inductive event : Type :=
| ConsoleError (args : list log_arg)
| Fetch (url : string) (init : RequestInit).

Definition trace := list event.

(** A computation reads the trace so far, and completes normally or
    abruptly with the trace extended (oldest event first). *)
Definition M (A : Type) : Type := trace -> completion A * trace.

Definition ret {A} (a : A) : M A := fun t => (Normal a, t).

Definition bind {A B} (m : M A) (k : A -> M B) : M B :=
  fun t =>
    match m t with
    | (Normal a, t') => k a t'
    | (Throw e, t') => (Throw e, t')
    end.

(** A pure step that may throw. *)
Definition lift {A} (c : completion A) : M A := fun t => (c, t).

Definition emit (e : event) : M unit := fun t => (Normal tt, (t ++ [e])%list).

(** [try { m } catch (error) { h error }]. *)
Definition try_catch {A} (m : M A) (h : exn -> M A) : M A :=
  fun t =>
    match m t with
    | (Normal a, t') => (Normal a, t')
    | (Throw e, t') => h e t'
    end.

Declare Scope eff_scope.
Delimit Scope eff_scope with eff.
Notation "x <- m ;; k" := (bind m (fun x => k))
  (at level 100, m at next level, right associativity) : eff_scope.
Notation "m ;; k" := (bind m (fun _ => k))
  (at level 100, right associativity) : eff_scope.
Notation "' pat <- m ;; k" := (bind m (fun x => match x with pat => k end))
  (at level 100, pat pattern, m at next level, right associativity) : eff_scope.

(** The network calls of a trace, in order. *)
Fixpoint fetches (t : trace) : list (string * RequestInit) :=
  match t with
  | [] => []
  | Fetch url init :: rest => (url, init) :: fetches rest
  | ConsoleError _ :: rest => fetches rest
  end.

End Eff.
Import Eff.
Local Open Scope eff_scope.

(* ================================================================== *)
(** ** The handler *)
(* ================================================================== *)

Module Solve.

(** The incoming request as the handler uses it: [req.method], and what
    awaiting [req.json()] gives (the decoded body, or an exception). *)
Record Request : Type := {
  method : string;
  json : completion value
}.

(** What [fetch] resolves to, as the handler uses it: what awaiting its
    [json()] gives. *)
Record Response : Type := {
  response_json : completion value
}.

(** The network: what a call [fetch(url, init)] resolves to or is rejected
    with. *)
Definition network : Type := string -> RequestInit -> completion Response.

(** What [res.status(code).json(body)] sends. *)
Record reply : Type := {
  status : nat;
  body : value
}.

Definition res_status_json (code : nat) (b : value) : M reply :=
  ret {| status := code; body := b |}.

Definition console_error (args : list log_arg) : M unit :=
  emit (ConsoleError args).

Definition fetch (net : network) (url : string) (init : RequestInit) : M Response :=
  emit (Fetch url init) ;; lift (net url init).

(** [process.env.NAME] is a string or [undefined]. *)
Definition env_value (v : option string) : value :=
  match v with
  | Some s => VStr s
  | None => VUndefined
  end.

(** An environment variable inside a template literal. *)
Definition env_template (v : option string) : string :=
  match v with
  | Some s => s
  | None => "undefined"
  end.

(** [list.push(x)]. *)
Definition push (l : list value) (x : value) : list value := (l ++ [x])%list.

Definition systemPrompt : string :=
  "You are 'The K Solver', an advanced mathematical computation engine. Your only function is to solve the given mathematical problem. You **must** provide the complete solution steps and the final answer **exclusively** using LaTeX mathematical notation. To enhance clarity, you **must** include brief, descriptive step labels (like LCM, Move, Cancel, Substitute, Simplify) within the LaTeX using the \text{} command. For example, use constructs like: '$$ \frac{1}{2} + \frac{1}{3} = \frac{3+2}{6} \quad \text{(LCM)} $$' or use the 'align*' environment for multi-step solutions with labels. Do not include any introductory text, closing remarks, explanations, descriptions, or any conversational language outside of the \text{} command within the math block. Use '$$' for display equations and '$' for inline expressions. If the problem is unsolvable or invalid, output the message '$$ \text{Invalid or Unsolvable Problem} $$'.".

Definition apiUrl (apiKey : option string) : string :=
  "https://generativelanguage.googleapis.com/v1beta/models/gemini-2.5-flash-preview-09-2025:generateContent?key="
  ++ env_template apiKey.

Definition contentsParts (userQuery base64Image mimeType : value) : list value :=
  let contentsParts := [] in
  let contentsParts := push contentsParts (VObj [("text", userQuery)]) in
  if truthy (and_then base64Image mimeType) then
    push contentsParts
      (VObj [("inlineData", VObj [("mimeType", mimeType); ("data", base64Image)])])
  else contentsParts.

Definition payload (userQuery base64Image mimeType : value) : value :=
  VObj [("contents",
         VArr [VObj [("parts", VArr (contentsParts userQuery base64Image mimeType))]]);
        ("systemInstruction",
         VObj [("parts", VArr [VObj [("text", VStr systemPrompt)]])])].

(** The options of the outbound call. *)
Definition fetch_init (p : value) : RequestInit :=
  {| init_method := "POST";
     init_headers := [("Content-Type", "application/json")];
     init_body := JSON_stringify p |}.

(** The text of the upstream-error answer around the shortened message. *)
Definition api_error_markup (shown : string) : string :=
  "$$ \text{API Error: } \text{" ++ shown ++ "...} $$".

(** [handler(req, res)], statement by statement.  The module-level
    constant [apiKey] and the network are parameters.  The two early
    [return]s come before the [try] block; inside it every [lift] is a step
    that may throw (awaiting [req.json()], destructuring the body, awaiting
    [geminiResponse.json()], reading a property without [?.], calling
    [substring]); [usable] is the value of the test
    [candidate && candidate.content?.parts?.[0]?.text]. *)
Definition handler (apiKey : option string) (net : network) (req : Request) : M reply :=
  if negb (method req =? "POST") then
    res_status_json 405 (VObj [("message", VStr "Method Not Allowed")])
  else if negb (truthy (env_value apiKey)) then
    (console_error
       [LogValue (VStr "GEMINI_API_KEY is not set in environment variables.")] ;;
     res_status_json 500
       (VObj [("message", VStr "Server configuration error: API Key missing.")]))
  else
    try_catch
      (body <- lift (json req) ;;
       userQuery <- lift (get_member body "userQuery") ;;
       base64Image <- lift (get_member body "base64Image") ;;
       mimeType <- lift (get_member body "mimeType") ;;
       geminiResponse <-
         fetch net (apiUrl apiKey)
           (fetch_init (payload userQuery base64Image mimeType)) ;;
       geminiResult <- lift (response_json geminiResponse) ;;
       candidates <- lift (get_member geminiResult "candidates") ;;
       let candidate := opt_element candidates 0 in
       usable <-
         (if truthy candidate then
            (content <- lift (get_member candidate "content") ;;
             ret (opt_member (opt_element (opt_member content "parts") 0) "text"))
          else ret candidate) ;;
       if truthy usable then
         (content <- lift (get_member candidate "content") ;;
          parts <- lift (get_member content "parts") ;;
          part <- lift (get_element parts 0) ;;
          solutionText <- lift (get_member part "text") ;;
          res_status_json 200 (VObj [("solution", solutionText)]))
       else
         (error <- lift (get_member geminiResult "error") ;;
          let errorMessage :=
            or_else (opt_member error "message") (VStr "Model returned no content.") in
          console_error
            [LogValue (VStr "Gemini API Error:"); LogValue errorMessage;
             LogValue geminiResult] ;;
          shown <- lift (call_substring errorMessage 0 50) ;;
          res_status_json 500 (VObj [("solution", VStr (api_error_markup shown))])))
      (fun error =>
         console_error [LogValue (VStr "Backend processing failed:"); LogError error] ;;
         res_status_json 500
           (VObj [("message", VStr "Internal server error during computation.")])).

(** One invocation, from an empty trace. *)
Definition invoke (apiKey : option string) (net : network) (req : Request)
  : completion reply * trace :=
  handler apiKey net req [].

End Solve.
Import Solve.

(* ================================================================== *)
(** ** Vocabulary of the statements *)
(* ================================================================== *)

(** The secret credential is set: the environment variable holds a
    non-empty string, which is what [!apiKey] tests. *)
Definition secret_set (apiKey : option string) : Prop :=
  truthy (env_value apiKey) = true.

(** The text content of the first candidate of an upstream answer,
    [geminiResult?.candidates?.[0]?.content?.parts?.[0]?.text]. *)
Definition first_candidate_text (geminiResult : value) : value :=
  opt_member
    (opt_element
       (opt_member
          (opt_member (opt_element (opt_member geminiResult "candidates") 0) "content")
          "parts")
       0)
    "text".

(** The error message an upstream answer carries, [error?.message]. *)
Definition upstream_error_message (geminiResult : value) : value :=
  opt_member (opt_member geminiResult "error") "message".

(** The message the upstream-error answer is built from:
    [geminiResult.error?.message || "Model returned no content."]. *)
Definition error_message (geminiResult : value) : value :=
  or_else (upstream_error_message geminiResult) (VStr "Model returned no content.").

(** The payload the handler builds from a decoded request body. *)
Definition outbound_payload (body : value) : value :=
  payload (opt_member body "userQuery") (opt_member body "base64Image")
    (opt_member body "mimeType").

(** The five answers the handler can give. *)
Definition method_not_allowed : reply :=
  {| status := 405; body := VObj [("message", VStr "Method Not Allowed")] |}.

Definition configuration_error : reply :=
  {| status := 500;
     body := VObj [("message", VStr "Server configuration error: API Key missing.")] |}.

Definition internal_error : reply :=
  {| status := 500;
     body := VObj [("message", VStr "Internal server error during computation.")] |}.

Definition solved (solutionText : value) : reply :=
  {| status := 200; body := VObj [("solution", solutionText)] |}.

Definition upstream_error (shown : string) : reply :=
  {| status := 500; body := VObj [("solution", VStr (api_error_markup shown))] |}.

(** The lines the handler writes on the error console. *)
Definition log_key_missing : event :=
  ConsoleError [LogValue (VStr "GEMINI_API_KEY is not set in environment variables.")].

Definition log_upstream (errorMessage geminiResult : value) : event :=
  ConsoleError [LogValue (VStr "Gemini API Error:"); LogValue errorMessage;
                LogValue geminiResult].

Definition log_failure (error : exn) : event :=
  ConsoleError [LogValue (VStr "Backend processing failed:"); LogError error].

(** The one call the handler makes for a decoded body. *)
Definition upstream_call (apiKey : option string) (body : value) : event :=
  Fetch (apiUrl apiKey) (fetch_init (outbound_payload body)).

(** The ways an invocation ends before the upstream stage, each with its
    answer and its whole trace: none of them makes a call. *)
Inductive stopped_early (apiKey : option string) (req : Request)
  : reply -> trace -> Prop :=
| stop_method :
    method req <> "POST" ->
    stopped_early apiKey req method_not_allowed []
| stop_configuration :
    method req = "POST" ->
    truthy (env_value apiKey) = false ->
    stopped_early apiKey req configuration_error [log_key_missing]
| stop_body_rejected e :
    method req = "POST" ->
    secret_set apiKey ->
    json req = Throw e ->
    stopped_early apiKey req internal_error [log_failure e]
| stop_body_nullish body :
    method req = "POST" ->
    secret_set apiKey ->
    json req = Normal body ->
    nullish body = true ->
    stopped_early apiKey req internal_error [log_failure TypeError].

(** An exception raised inside the [try] block before the upstream answer
    is looked at: while the body is read ([req.json()] rejects, or the
    decoded body is [null] and cannot be destructured), by the network call,
    or while the upstream answer is decoded. *)
Inductive exception_raised (apiKey : option string) (net : network) (req : Request)
  : exn -> Prop :=
| raised_by_body_parsing e :
    json req = Throw e ->
    exception_raised apiKey net req e
| raised_by_destructuring body :
    json req = Normal body ->
    nullish body = true ->
    exception_raised apiKey net req TypeError
| raised_by_network_call body e :
    json req = Normal body ->
    nullish body = false ->
    net (apiUrl apiKey) (fetch_init (outbound_payload body)) = Throw e ->
    exception_raised apiKey net req e
| raised_by_decoding body geminiResponse e :
    json req = Normal body ->
    nullish body = false ->
    net (apiUrl apiKey) (fetch_init (outbound_payload body)) = Normal geminiResponse ->
    response_json geminiResponse = Throw e ->
    exception_raised apiKey net req e.

(** The message the upstream-error answer reports: the upstream error
    message when it is a non-empty string, the generic one when the upstream
    answer carries none (or a falsy one). *)
Inductive reported_message (geminiResult : value) : string -> Prop :=
| report_upstream m :
    upstream_error_message geminiResult = VStr m ->
    m <> "" ->
    reported_message geminiResult m
| report_fallback :
    truthy (upstream_error_message geminiResult) = false ->
    reported_message geminiResult "Model returned no content.".

(** The upstream-error sentence of the specification, as it is written:
    on a POST invocation with the secret set, without a usable text in the
    upstream answer, the handler answers 500 with a body of the
    [{ solution: <string> }] shape. *)
Definition upstream_content_error_claim : Prop :=
  forall apiKey net req body geminiResponse geminiResult,
    method req = "POST" ->
    secret_set apiKey ->
    json req = Normal body ->
    nullish body = false ->
    net (apiUrl apiKey) (fetch_init (outbound_payload body)) = Normal geminiResponse ->
    response_json geminiResponse = Normal geminiResult ->
    truthy (first_candidate_text geminiResult) = false ->
    exists solution,
      fst (invoke apiKey net req) =
        Normal {| status := 500; body := VObj [("solution", VStr solution)] |}.

(* ================================================================== *)
(** ** Sample invocations *)
(* ================================================================== *)

Module Sample.

Definition secret : option string := Some "AIzaSy-sample-key".

Definition text_request : Request :=
  {| method := "POST";
     json := Normal (VObj [("userQuery", VStr "Solve 2x + 3 = 7")]) |}.

Definition image_request : Request :=
  {| method := "POST";
     json := Normal (VObj [("userQuery", VStr "Solve the equation in the picture");
                           ("base64Image", VStr "iVBORw0KGgoAAAANSUhEUg==");
                           ("mimeType", VStr "image/png")]) |}.

(** An image without its type: the partial input the handler does not
    reject. *)
Definition partial_request : Request :=
  {| method := "POST";
     json := Normal (VObj [("userQuery", VStr "Solve the equation in the picture");
                           ("base64Image", VStr "iVBORw0KGgoAAAANSUhEUg==");
                           ("mimeType", VStr "")]) |}.

Definition get_request : Request :=
  {| method := "GET"; json := Throw (Rejected "Unexpected end of JSON input") |}.

Definition unparsable_request : Request :=
  {| method := "POST"; json := Throw (Rejected "Unexpected token < in JSON") |}.

(** A network on which the upstream service answers [geminiResult]. *)
Definition answering (geminiResult : value) : network :=
  fun _ _ => Normal {| response_json := Normal geminiResult |}.

(** A network that is down, and one whose answer is no JSON. *)
Definition unreachable : network :=
  fun _ _ => Throw (Rejected "fetch failed").

Definition garbled : network :=
  fun _ _ => Normal {| response_json := Throw (Rejected "Unexpected token < in JSON") |}.

Definition solution_answer : value :=
  VObj [("candidates",
         VArr [VObj [("content",
                      VObj [("parts", VArr [VObj [("text", VStr "$$ x = 2 $$")]]);
                            ("role", VStr "model")]);
                     ("finishReason", VStr "STOP")]])].

Definition quota_answer : value :=
  VObj [("error",
         VObj [("code", VNum 429);
               ("message",
                VStr "Resource has been exhausted (e.g. check quota). Please retry later.");
               ("status", VStr "RESOURCE_EXHAUSTED")])].

Definition empty_answer : value := VObj [("candidates", VArr [])].

(** An error whose message is not a string. *)
Definition numeric_error_answer : value :=
  VObj [("error", VObj [("message", VNum 404)])].

End Sample.

(* ================================================================== *)
(** ** Vocabulary of the further properties *)
(* ================================================================== *)

(** The lines a trace writes on the error console, in order. *)
Fixpoint console_lines (t : trace) : list (list log_arg) :=
  match t with
  | [] => []
  | ConsoleError args :: rest => args :: console_lines rest
  | Fetch _ _ :: rest => console_lines rest
  end.

(** What follows the upstream call made for [body]: the answer, and the
    events after the call. *)
Inductive upstream_outcome (apiKey : option string) (net : network) (body : value)
  : reply -> trace -> Prop :=
| outcome_fetch_rejected e :
    net (apiUrl apiKey) (fetch_init (outbound_payload body)) = Throw e ->
    upstream_outcome apiKey net body internal_error [log_failure e]
| outcome_decoding_rejected geminiResponse e :
    net (apiUrl apiKey) (fetch_init (outbound_payload body)) = Normal geminiResponse ->
    response_json geminiResponse = Throw e ->
    upstream_outcome apiKey net body internal_error [log_failure e]
| outcome_nullish geminiResponse geminiResult :
    net (apiUrl apiKey) (fetch_init (outbound_payload body)) = Normal geminiResponse ->
    response_json geminiResponse = Normal geminiResult ->
    nullish geminiResult = true ->
    upstream_outcome apiKey net body internal_error [log_failure TypeError]
| outcome_solved geminiResponse geminiResult :
    net (apiUrl apiKey) (fetch_init (outbound_payload body)) = Normal geminiResponse ->
    response_json geminiResponse = Normal geminiResult ->
    truthy (first_candidate_text geminiResult) = true ->
    upstream_outcome apiKey net body (solved (first_candidate_text geminiResult)) []
| outcome_upstream_error geminiResponse geminiResult m :
    net (apiUrl apiKey) (fetch_init (outbound_payload body)) = Normal geminiResponse ->
    response_json geminiResponse = Normal geminiResult ->
    nullish geminiResult = false ->
    truthy (first_candidate_text geminiResult) = false ->
    error_message geminiResult = VStr m ->
    upstream_outcome apiKey net body (upstream_error (substring m 0 50))
      [log_upstream (VStr m) geminiResult]
| outcome_not_a_string geminiResponse geminiResult :
    net (apiUrl apiKey) (fetch_init (outbound_payload body)) = Normal geminiResponse ->
    response_json geminiResponse = Normal geminiResult ->
    nullish geminiResult = false ->
    truthy (first_candidate_text geminiResult) = false ->
    (forall m, error_message geminiResult <> VStr m) ->
    upstream_outcome apiKey net body internal_error
      [log_upstream (error_message geminiResult) geminiResult; log_failure TypeError].

(** More upstream answers. *)
Module Upstream.

(** A first candidate whose first part is no text; the text comes second,
    and a second candidate has one too. *)
Definition later_text_answer : value :=
  VObj [("candidates",
         VArr [VObj [("content",
                      VObj [("parts",
                             VArr [VObj [("thought", VBool true)];
                                   VObj [("text", VStr "$$ x = 2 $$")]])])];
               VObj [("content",
                      VObj [("parts", VArr [VObj [("text", VStr "$$ x = 2 $$")]])])]])].

(** An error whose message is an object. *)
Definition structured_error_answer : value :=
  VObj [("error", VObj [("message", VObj [("text", VStr "quota exceeded")])])].

(** A request whose body has no [userQuery]. *)
Definition image_only_request : Request :=
  {| method := "POST";
     json := Normal (VObj [("base64Image", VStr "iVBORw0KGgoAAAANSUhEUg==");
                           ("mimeType", VStr "image/png")]) |}.

End Upstream.

(* ================================================================== *)
(** ** The model at work *)
(* ================================================================== *)

Example index_name_0 : index_name 0 = "0".
Proof. reflexivity. Qed.

Example truthy_negative_zero : truthy (VNum (-0)%float) = false.
Proof. reflexivity. Qed.

Example truthy_nan : truthy (VNum nan) = false.
Proof. reflexivity. Qed.

Example truthy_empty_array : truthy (VArr []) = true.
Proof. reflexivity. Qed.

Example element_of_string : get_element (VStr "abc") 0 = Normal (VStr "a").
Proof. reflexivity. Qed.

Example element_of_object :
  get_element (VObj [("0", VStr "first")]) 0 = Normal (VStr "first").
Proof. reflexivity. Qed.

Example member_of_null : get_member VNull "candidates" = Throw TypeError.
Proof. reflexivity. Qed.

Example substring_clamps : substring "abc" 0 50 = "abc".
Proof. reflexivity. Qed.

Example substring_swaps : substring "abcdef" 4 1 = "bcd".
Proof. reflexivity. Qed.

Example stringify_drops_undefined :
  JSON_stringify (VObj [("text", VUndefined); ("n", VNum infinity)]) =
    Some (JObject [("n", JNull)]).
Proof. reflexivity. Qed.

(** The monad laws, pointwise. *)
Lemma bind_ret_l {A B} (a : A) (k : A -> M B) t : bind (ret a) k t = k a t.
Proof. reflexivity. Qed.

Lemma bind_ret_r {A} (m : M A) t : bind m ret t = m t.
Proof. unfold bind, ret. destruct (m t) as [[a | e] t']; reflexivity. Qed.

Lemma bind_assoc {A B C} (m : M A) (k : A -> M B) (h : B -> M C) t :
  bind (bind m k) h t = bind m (fun a => bind (k a) h) t.
Proof. unfold bind. destruct (m t) as [[a | e] t']; reflexivity. Qed.

(** A [try] block hands every exception to its handler: with a handler
    that completes normally, so does the whole statement. *)
Lemma try_catch_normal {A} (m : M A) (h : exn -> M A) t :
  (forall e t', exists a t'', h e t' = (Normal a, t'')) ->
  exists a t', try_catch m h t = (Normal a, t').
Proof.
  intros Hh. unfold try_catch. destruct (m t) as [[a | e] t'].
  - exists a, t'. reflexivity.
  - apply Hh.
Qed.

(* ================================================================== *)
(** ** Values: truthiness and property access *)
(* ================================================================== *)

Section ValueFacts.

Lemma truthy_not_nullish v : truthy v = true -> nullish v = false.
Proof. destruct v; simpl; congruence. Qed.

Lemma truthy_and_then a b : truthy (and_then a b) = truthy a && truthy b.
Proof. unfold and_then. destruct (truthy a) eqn:E; simpl; auto. Qed.

Lemma get_member_opt v k :
  nullish v = false -> get_member v k = Normal (opt_member v k).
Proof. unfold opt_member; destruct v; simpl; congruence. Qed.

Lemma get_element_opt v n :
  nullish v = false -> get_element v n = Normal (opt_element v n).
Proof. unfold opt_element; destruct v; simpl; congruence. Qed.

Lemma get_member_nullish v k : nullish v = true -> get_member v k = Throw TypeError.
Proof. destruct v; simpl; congruence. Qed.

(** A falsy value ([undefined], [null], [false], a zero or NaN, the empty
    string) has no property at all. *)
Lemma falsy_member v k : truthy v = false -> opt_member v k = VUndefined.
Proof. unfold opt_member; destruct v; simpl; congruence. Qed.

Lemma falsy_element v n : truthy v = false -> opt_element v n = VUndefined.
Proof.
  unfold opt_element; destruct v as [ | | b | x | s | elems | props ];
    simpl; try congruence.
  destruct s; simpl; [ destruct n; reflexivity | discriminate ].
Qed.

Lemma truthy_member_base v k : truthy (opt_member v k) = true -> truthy v = true.
Proof.
  intros H. destruct (truthy v) eqn:E; [ reflexivity | ].
  rewrite (falsy_member v k E) in H. discriminate.
Qed.

Lemma truthy_element_base v n : truthy (opt_element v n) = true -> truthy v = true.
Proof.
  intros H. destruct (truthy v) eqn:E; [ reflexivity | ].
  rewrite (falsy_element v n E) in H. discriminate.
Qed.

(** A usable text sits at the end of a chain of truthy values. *)
Lemma first_candidate_text_chain r :
  truthy (first_candidate_text r) = true ->
  let candidate := opt_element (opt_member r "candidates") 0 in
  let content := opt_member candidate "content" in
  let parts := opt_member content "parts" in
  truthy r = true /\ truthy candidate = true /\ truthy content = true /\
  truthy parts = true /\ truthy (opt_element parts 0) = true.
Proof.
  unfold first_candidate_text. intros H.
  pose proof (truthy_member_base _ _ H) as H1.
  pose proof (truthy_element_base _ _ H1) as H2.
  pose proof (truthy_member_base _ _ H2) as H3.
  pose proof (truthy_member_base _ _ H3) as H4.
  pose proof (truthy_element_base _ _ H4) as H5.
  pose proof (truthy_member_base _ _ H5) as H6.
  cbv zeta. auto.
Qed.

(** Without a truthy first candidate there is no first-candidate text. *)
Lemma first_candidate_text_falsy_candidate r :
  truthy (opt_element (opt_member r "candidates") 0) = false ->
  first_candidate_text r = VUndefined.
Proof.
  intros H. unfold first_candidate_text.
  rewrite (falsy_member _ "content" H). reflexivity.
Qed.

End ValueFacts.

(** [String.substring 0 n] keeps the first [n] characters. *)
Lemma substring_0_length n s :
  String.length (String.substring 0 n s) = Nat.min n (String.length s).
Proof.
  revert s; induction n as [ | n IH ]; intros [ | c s ]; simpl; auto.
Qed.

Lemma substring_0_prefix n s :
  exists rest, s = String.substring 0 n s ++ rest.
Proof.
  revert s; induction n as [ | n IH ]; intros s.
  - exists s. destruct s; reflexivity.
  - destruct s as [ | c s ]; simpl.
    + exists "". reflexivity.
    + destruct (IH s) as [rest E]. exists rest. rewrite <- E. reflexivity.
Qed.

(** [s.substring(0, n)] is the prefix of [s] of length [min n |s|]. *)
Lemma substring_first n s :
  String.length (substring s 0 n) = Nat.min n (String.length s) /\
  exists rest, s = substring s 0 n ++ rest.
Proof.
  unfold substring.
  change (Nat.min 0 n) with 0. change (Nat.max 0 n) with n.
  change (Nat.min 0 (String.length s)) with 0. rewrite Nat.sub_0_r.
  split.
  - rewrite substring_0_length. lia.
  - apply substring_0_prefix.
Qed.

(* ================================================================== *)
(** ** The paths through the handler *)
(* ================================================================== *)

(** One lemma per path: the answer and the whole trace of the invocation. *)

Ltac run_handler :=
  cbv [invoke handler try_catch bind lift ret fetch emit console_error
       res_status_json].

Section Paths.

Variable apiKey : option string.
Variable net : network.
Variable req : Request.

Lemma path_method_not_allowed :
  method req <> "POST" ->
  invoke apiKey net req = (Normal method_not_allowed, []).
Proof.
  intros H. run_handler.
  destruct (String.eqb_spec (method req) "POST") as [E | _]; [ contradiction | ].
  reflexivity.
Qed.

Lemma path_configuration_error :
  method req = "POST" ->
  truthy (env_value apiKey) = false ->
  invoke apiKey net req = (Normal configuration_error, [log_key_missing]).
Proof.
  intros Hm Hk. run_handler. rewrite Hm, String.eqb_refl, Hk. reflexivity.
Qed.

Section Try.

Hypothesis Hm : method req = "POST".
Hypothesis Hk : secret_set apiKey.

Lemma path_body_rejected e :
  json req = Throw e ->
  invoke apiKey net req = (Normal internal_error, [log_failure e]).
Proof.
  intros Hj. run_handler. rewrite Hm, String.eqb_refl, Hk, Hj. reflexivity.
Qed.

Lemma path_body_nullish body :
  json req = Normal body ->
  nullish body = true ->
  invoke apiKey net req = (Normal internal_error, [log_failure TypeError]).
Proof.
  intros Hj Hb. run_handler. rewrite Hm, String.eqb_refl, Hk, Hj.
  rewrite (get_member_nullish body "userQuery" Hb). reflexivity.
Qed.

Section Upstream.

Variable body : value.
Hypothesis Hj : json req = Normal body.
Hypothesis Hb : nullish body = false.

Ltac reach_upstream :=
  run_handler; rewrite Hm, String.eqb_refl, Hk, Hj; cbn [negb app];
  rewrite !(get_member_opt body _ Hb);
  fold (outbound_payload body); fold (upstream_call apiKey body).

Lemma path_fetch_rejected e :
  net (apiUrl apiKey) (fetch_init (outbound_payload body)) = Throw e ->
  invoke apiKey net req =
    (Normal internal_error, [upstream_call apiKey body; log_failure e]).
Proof.
  intros Hn. reach_upstream. rewrite Hn. reflexivity.
Qed.

Section Answered.

Variable geminiResponse : Response.
Hypothesis Hn :
  net (apiUrl apiKey) (fetch_init (outbound_payload body)) = Normal geminiResponse.

Lemma path_decoding_rejected e :
  response_json geminiResponse = Throw e ->
  invoke apiKey net req =
    (Normal internal_error, [upstream_call apiKey body; log_failure e]).
Proof.
  intros Hr. reach_upstream. rewrite Hn, Hr. reflexivity.
Qed.

Section Decoded.

Variable geminiResult : value.
Hypothesis Hr : response_json geminiResponse = Normal geminiResult.

Lemma path_result_nullish :
  nullish geminiResult = true ->
  invoke apiKey net req =
    (Normal internal_error, [upstream_call apiKey body; log_failure TypeError]).
Proof.
  intros Hnull. reach_upstream. rewrite Hn, Hr.
  rewrite (get_member_nullish geminiResult "candidates" Hnull). reflexivity.
Qed.

Lemma path_solved :
  truthy (first_candidate_text geminiResult) = true ->
  invoke apiKey net req =
    (Normal (solved (first_candidate_text geminiResult)), [upstream_call apiKey body]).
Proof.
  intros Ht. reach_upstream. rewrite Hn, Hr.
  destruct (first_candidate_text_chain _ Ht) as (H1 & H2 & H3 & H4 & H5).
  unfold first_candidate_text in *.
  rewrite (get_member_opt geminiResult) by auto using truthy_not_nullish.
  rewrite H2.
  rewrite (get_member_opt (opt_element _ _)) by auto using truthy_not_nullish.
  rewrite Ht.
  rewrite (get_member_opt (opt_member _ "content")) by auto using truthy_not_nullish.
  rewrite (get_element_opt (opt_member _ "parts")) by auto using truthy_not_nullish.
  rewrite (get_member_opt (opt_element _ _)) by auto using truthy_not_nullish.
  reflexivity.
Qed.

(** The test of the [if], when the first candidate has no usable text. *)
Ltac no_usable_text Hnull Ht :=
  reach_upstream; rewrite Hn, Hr;
  rewrite !(get_member_opt geminiResult _ Hnull);
  destruct (truthy (opt_element (opt_member geminiResult "candidates") 0)) eqn:Hc;
  [ rewrite (get_member_opt (opt_element _ _)) by auto using truthy_not_nullish;
    unfold first_candidate_text in Ht; rewrite Ht
  | rewrite Hc ];
  fold (upstream_error_message geminiResult); fold (error_message geminiResult).

Lemma path_upstream_error m :
  nullish geminiResult = false ->
  truthy (first_candidate_text geminiResult) = false ->
  error_message geminiResult = VStr m ->
  invoke apiKey net req =
    (Normal (upstream_error (substring m 0 50)),
     [upstream_call apiKey body; log_upstream (VStr m) geminiResult]).
Proof.
  intros Hnull Ht He.
  no_usable_text Hnull Ht; rewrite He; reflexivity.
Qed.

Lemma path_message_not_a_string :
  nullish geminiResult = false ->
  truthy (first_candidate_text geminiResult) = false ->
  (forall m, error_message geminiResult <> VStr m) ->
  invoke apiKey net req =
    (Normal internal_error,
     [upstream_call apiKey body;
      log_upstream (error_message geminiResult) geminiResult;
      log_failure TypeError]).
Proof.
  intros Hnull Ht He.
  no_usable_text Hnull Ht;
    (destruct (error_message geminiResult) as [ | | b | x | m | elems | props ];
     try reflexivity; exfalso; apply (He m); reflexivity).
Qed.

End Decoded.
End Answered.
End Upstream.
End Try.
End Paths.

(* ================================================================== *)
(** ** Every invocation takes one of the paths *)
(* ================================================================== *)

Lemma error_message_cases r :
  (exists m, error_message r = VStr m) \/ (forall m, error_message r <> VStr m).
Proof.
  destruct (error_message r) as [ | | b | x | m | elems | props ];
    try (right; intros m'; discriminate).
  left. exists m. reflexivity.
Qed.

(** Once the body is decoded and destructured, the handler calls the
    upstream service, once and first of all, and answers in one of three
    ways. *)
Lemma upstream_stage apiKey net req body :
  method req = "POST" ->
  secret_set apiKey ->
  json req = Normal body ->
  nullish body = false ->
  exists r rest,
    invoke apiKey net req = (Normal r, upstream_call apiKey body :: rest) /\
    fetches rest = [] /\
    (r = internal_error \/
     (exists solutionText, truthy solutionText = true /\ r = solved solutionText) \/
     (exists shown, r = upstream_error shown)).
Proof.
  intros Hm Hk Hj Hb.
  destruct (net (apiUrl apiKey) (fetch_init (outbound_payload body)))
    as [geminiResponse | e] eqn:Hn.
  2:{ eexists _, _. rewrite (path_fetch_rejected _ _ _ Hm Hk _ Hj Hb _ Hn). auto. }
  destruct (response_json geminiResponse) as [geminiResult | e] eqn:Hr.
  2:{ eexists _, _.
      rewrite (path_decoding_rejected _ _ _ Hm Hk _ Hj Hb _ Hn _ Hr). auto. }
  destruct (nullish geminiResult) eqn:Hnull.
  { eexists _, _.
    rewrite (path_result_nullish _ _ _ Hm Hk _ Hj Hb _ Hn _ Hr Hnull). auto. }
  destruct (truthy (first_candidate_text geminiResult)) eqn:Ht.
  { eexists _, _. rewrite (path_solved _ _ _ Hm Hk _ Hj Hb _ Hn _ Hr Ht).
    split; [ reflexivity | ]. split; [ reflexivity | ]. right; left; eauto. }
  destruct (error_message_cases geminiResult) as [[m He] | He].
  - eexists _, _.
    rewrite (path_upstream_error _ _ _ Hm Hk _ Hj Hb _ Hn _ Hr _ Hnull Ht He).
    split; [ reflexivity | ]. split; [ reflexivity | ]. right; right; eauto.
  - eexists _, _.
    rewrite (path_message_not_a_string _ _ _ Hm Hk _ Hj Hb _ Hn _ Hr Hnull Ht He).
    auto.
Qed.

(** The call the handler makes, whenever it gets as far as making it. *)
Lemma upstream_called_once apiKey net req body :
  method req = "POST" ->
  secret_set apiKey ->
  json req = Normal body ->
  nullish body = false ->
  fetches (snd (invoke apiKey net req)) =
    [(apiUrl apiKey, fetch_init (outbound_payload body))].
Proof.
  intros Hm Hk Hj Hb.
  destruct (upstream_stage apiKey net req body Hm Hk Hj Hb)
    as (r & rest & E & Hrest & _).
  rewrite E. simpl. rewrite Hrest. reflexivity.
Qed.

Lemma invoke_cases apiKey net req :
  (exists r t, invoke apiKey net req = (Normal r, t) /\ stopped_early apiKey req r t) \/
  (exists body,
     method req = "POST" /\ secret_set apiKey /\
     json req = Normal body /\ nullish body = false).
Proof.
  destruct (String.eqb_spec (method req) "POST") as [Hm | Hm].
  2:{ left. eexists _, _. split; [ apply path_method_not_allowed; exact Hm | ].
      constructor; exact Hm. }
  destruct (truthy (env_value apiKey)) eqn:Hk.
  2:{ left. eexists _, _.
      split; [ apply path_configuration_error; assumption | ].
      constructor; assumption. }
  destruct (json req) as [body | e] eqn:Hj.
  2:{ left. eexists _, _. split; [ apply path_body_rejected; eassumption | ].
      constructor; assumption. }
  destruct (nullish body) eqn:Hb.
  { left. eexists _, _. split; [ eapply path_body_nullish; eassumption | ].
    econstructor; eassumption. }
  right. exists body. auto.
Qed.

Example solution_answer_run :
  invoke Sample.secret (Sample.answering Sample.solution_answer) Sample.text_request =
    (Normal (solved (VStr "$$ x = 2 $$")),
     [upstream_call Sample.secret (VObj [("userQuery", VStr "Solve 2x + 3 = 7")])]).
Proof. reflexivity. Qed.

Example quota_answer_run :
  fst (invoke Sample.secret (Sample.answering Sample.quota_answer) Sample.text_request) =
    Normal {| status := 500;
              body := VObj [("solution",
                             VStr "$$ \text{API Error: } \text{Resource has been exhausted (e.g. check quota). Pl...} $$")] |}.
Proof. reflexivity. Qed.

Example empty_answer_run :
  fst (invoke Sample.secret (Sample.answering Sample.empty_answer) Sample.text_request) =
    Normal {| status := 500;
              body := VObj [("solution",
                             VStr "$$ \text{API Error: } \text{Model returned no content....} $$")] |}.
Proof. reflexivity. Qed.

Example system_prompt_length : String.length systemPrompt = 925.
Proof. reflexivity. Qed.

(* ================================================================== *)
(** ** The contract of the handler *)
(* ================================================================== *)

(** C4.  An invocation whose method is not POST is answered 405 with the
    static body [{ message: "Method Not Allowed" }]; its trace is empty, so
    it calls nothing and writes nothing, whatever the secret, the network
    and the rest of the request are. *)
Theorem wrong_method_is_rejected :
  forall apiKey net req,
    method req <> "POST" ->
    invoke apiKey net req =
      (Normal {| status := 405;
                 body := VObj [("message", VStr "Method Not Allowed")] |},
       []).
Proof.
  intros apiKey net req Hm. exact (path_method_not_allowed apiKey net req Hm).
Qed.

Lemma wrong_method_is_rejected_witness :
  invoke Sample.secret Sample.unreachable Sample.get_request =
    (Normal {| status := 405;
               body := VObj [("message", VStr "Method Not Allowed")] |},
     []).
Proof.
  apply (wrong_method_is_rejected Sample.secret Sample.unreachable Sample.get_request).
  simpl. discriminate.
Defined.

(** C5.  A POST invocation without the secret (the variable unset, or set
    to the empty string) is answered 500 with
    [{ message: "Server configuration error: API Key missing." }]; the only
    event of the invocation is the line on the error console, so no call is
    made, whatever the body and the network are: the check comes before
    the body is read and before any call. *)
Theorem missing_secret_is_reported :
  forall apiKey net req,
    method req = "POST" ->
    truthy (env_value apiKey) = false ->
    invoke apiKey net req =
      (Normal {| status := 500;
                 body := VObj [("message",
                                VStr "Server configuration error: API Key missing.")] |},
       [ConsoleError
          [LogValue (VStr "GEMINI_API_KEY is not set in environment variables.")]]) /\
    fetches (snd (invoke apiKey net req)) = [].
Proof.
  intros apiKey net req Hm Hk.
  rewrite (path_configuration_error apiKey net req Hm Hk).
  split; reflexivity.
Qed.

Lemma missing_secret_is_reported_witness :
  invoke None (Sample.answering Sample.solution_answer) Sample.text_request =
    (Normal {| status := 500;
               body := VObj [("message",
                              VStr "Server configuration error: API Key missing.")] |},
     [ConsoleError
        [LogValue (VStr "GEMINI_API_KEY is not set in environment variables.")]]) /\
  fetches (snd (invoke None (Sample.answering Sample.solution_answer)
                  Sample.text_request)) = [].
Proof.
  apply (missing_secret_is_reported None (Sample.answering Sample.solution_answer)
           Sample.text_request); reflexivity.
Defined.

(** An empty secret is no secret. *)
Example empty_secret_run :
  invoke (Some "") (Sample.answering Sample.solution_answer) Sample.text_request =
    (Normal configuration_error, [log_key_missing]).
Proof. reflexivity. Qed.

(** The secret is absent exactly when the variable is unset or empty. *)
Lemma secret_absent_iff apiKey :
  truthy (env_value apiKey) = false <-> apiKey = None \/ apiKey = Some "".
Proof.
  destruct apiKey as [ [ | c k ] | ]; simpl; split; intros H; auto;
    try discriminate; destruct H as [H | H]; discriminate.
Qed.

(** C1.  On a POST invocation with the secret set that gets an upstream
    answer, if the text of the first part of the first candidate
    ([candidates[0].content.parts[0].text]) is non-empty (truthy), the answer
    is 200 with body [{ solution: text }], the text being the upstream value
    itself. *)
Theorem usable_text_is_passed_through :
  forall apiKey net req body geminiResponse geminiResult,
    method req = "POST" ->
    secret_set apiKey ->
    json req = Normal body ->
    nullish body = false ->
    net (apiUrl apiKey) (fetch_init (outbound_payload body)) = Normal geminiResponse ->
    response_json geminiResponse = Normal geminiResult ->
    truthy (first_candidate_text geminiResult) = true ->
    fst (invoke apiKey net req) =
      Normal {| status := 200;
                body := VObj [("solution", first_candidate_text geminiResult)] |}.
Proof.
  intros apiKey net req body geminiResponse geminiResult Hm Hk Hj Hb Hn Hr Ht.
  rewrite (path_solved apiKey net req Hm Hk body Hj Hb geminiResponse Hn
             geminiResult Hr Ht).
  reflexivity.
Qed.

Lemma usable_text_is_passed_through_witness :
  fst (invoke Sample.secret (Sample.answering Sample.solution_answer)
         Sample.image_request) =
    Normal {| status := 200; body := VObj [("solution", VStr "$$ x = 2 $$")] |}.
Proof.
  apply (usable_text_is_passed_through Sample.secret
           (Sample.answering Sample.solution_answer) Sample.image_request
           (VObj [("userQuery", VStr "Solve the equation in the picture");
                  ("base64Image", VStr "iVBORw0KGgoAAAANSUhEUg==");
                  ("mimeType", VStr "image/png")])
           {| response_json := Normal Sample.solution_answer |}
           Sample.solution_answer); reflexivity.
Defined.

(** C3.  On a POST invocation with the secret set, an exception raised by
    body parsing, by the network call or by the decoding of the upstream
    answer is caught: the handler completes normally, answers 500 with
    [{ message: "Internal server error during computation." }], which is not
    an answer of the [{ solution: ... }] shape, and the exception is logged
    by the [catch] block as the last event. *)
Theorem exceptions_become_internal_error :
  forall apiKey net req e,
    method req = "POST" ->
    secret_set apiKey ->
    exception_raised apiKey net req e ->
    fst (invoke apiKey net req) =
      Normal {| status := 500;
                body := VObj [("message",
                               VStr "Internal server error during computation.")] |} /\
    (forall solutionText,
       fst (invoke apiKey net req) <>
         Normal {| status := 500; body := VObj [("solution", solutionText)] |}) /\
    (exists before,
       snd (invoke apiKey net req) =
         (before ++
          [ConsoleError [LogValue (VStr "Backend processing failed:"); LogError e]])%list).
Proof.
  intros apiKey net req e Hm Hk Hraised.
  assert (E : exists before,
             invoke apiKey net req = (Normal internal_error, (before ++ [log_failure e])%list)).
  { destruct Hraised as [e Hj | body Hj Hb | body e Hj Hb Hn | body resp e Hj Hb Hn Hr].
    - exists []. apply path_body_rejected; assumption.
    - exists []. eapply path_body_nullish; eassumption.
    - exists [upstream_call apiKey body]. apply path_fetch_rejected; assumption.
    - exists [upstream_call apiKey body].
      eapply path_decoding_rejected; eassumption. }
  destruct E as [before E]. rewrite E. simpl.
  split; [ reflexivity | ]. split; [ | exists before; reflexivity ].
  intros solutionText H. discriminate H.
Qed.

Lemma exceptions_become_internal_error_witness :
  fst (invoke Sample.secret Sample.unreachable Sample.text_request) =
    Normal {| status := 500;
              body := VObj [("message",
                             VStr "Internal server error during computation.")] |} /\
  (forall solutionText,
     fst (invoke Sample.secret Sample.unreachable Sample.text_request) <>
       Normal {| status := 500; body := VObj [("solution", solutionText)] |}) /\
  (exists before,
     snd (invoke Sample.secret Sample.unreachable Sample.text_request) =
       (before ++
        [ConsoleError [LogValue (VStr "Backend processing failed:");
                       LogError (Rejected "fetch failed")]])%list).
Proof.
  apply (exceptions_become_internal_error Sample.secret Sample.unreachable
           Sample.text_request (Rejected "fetch failed")).
  - reflexivity.
  - reflexivity.
  - apply (raised_by_network_call Sample.secret Sample.unreachable Sample.text_request
             (VObj [("userQuery", VStr "Solve 2x + 3 = 7")])); reflexivity.
Defined.

Example unparsable_body_run :
  invoke Sample.secret (Sample.answering Sample.solution_answer)
    Sample.unparsable_request =
    (Normal internal_error, [log_failure (Rejected "Unexpected token < in JSON")]).
Proof. reflexivity. Qed.

Example garbled_answer_run :
  fst (invoke Sample.secret Sample.garbled Sample.text_request) = Normal internal_error.
Proof. reflexivity. Qed.

Lemma secret_set_some apiKey :
  secret_set apiKey -> exists k, apiKey = Some k /\ k <> "".
Proof.
  unfold secret_set. destruct apiKey as [ [ | c k ] | ]; simpl; intros H;
    try discriminate.
  eexists; split; [ reflexivity | discriminate ].
Qed.

(** C8.  The calls of an invocation are none, or one POST to the fixed
    endpoint: the address ends with the secret as the [key] parameter, the
    only header is the JSON content type, and the body is the serialised
    payload.  No invocation makes two calls.  A POST invocation with the
    secret set whose body is decoded and destructured makes exactly that
    one call, whatever the upstream service does then. *)
Theorem at_most_one_upstream_call :
  forall apiKey net req,
    (fetches (snd (invoke apiKey net req)) = [] \/
     exists k body,
       apiKey = Some k /\ json req = Normal body /\
       fetches (snd (invoke apiKey net req)) =
         [("https://generativelanguage.googleapis.com/v1beta/models/gemini-2.5-flash-preview-09-2025:generateContent?key="
           ++ k,
           {| init_method := "POST";
              init_headers := [("Content-Type", "application/json")];
              init_body := JSON_stringify (outbound_payload body) |})]) /\
    length (fetches (snd (invoke apiKey net req))) <= 1 /\
    (method req = "POST" -> secret_set apiKey ->
     forall body, json req = Normal body -> nullish body = false ->
       fetches (snd (invoke apiKey net req)) =
         [(apiUrl apiKey,
           {| init_method := "POST";
              init_headers := [("Content-Type", "application/json")];
              init_body := JSON_stringify (outbound_payload body) |})]).
Proof.
  intros apiKey net req.
  destruct (invoke_cases apiKey net req)
    as [(r & t & E & Hstop) | (body & Hm & Hk & Hj & Hb)].
  - assert (Hnone : fetches (snd (invoke apiKey net req)) = []).
    { rewrite E. destruct Hstop; reflexivity. }
    rewrite Hnone. split; [ left; reflexivity | ]. split; [ simpl; lia | ].
    intros Hm Hk body Hj Hb.
    destruct Hstop as [Hm' | _ Hk' | e _ _ Hj' | body' _ _ Hj' Hb'].
    + contradiction.
    + unfold secret_set in Hk. congruence.
    + congruence.
    + congruence.
  - pose proof (upstream_called_once apiKey net req body Hm Hk Hj Hb) as Hone.
    destruct (secret_set_some apiKey Hk) as (k & Ek & _).
    rewrite Hone. split.
    + right. exists k, body. subst apiKey. auto.
    + split; [ simpl; lia | ]. intros _ _ body' Hj' _.
      assert (body' = body) by congruence. subst body'. reflexivity.
Qed.


(* ------------------------------------------------------------------ *)
(** *** The payload *)
(* ------------------------------------------------------------------ *)

(** The parts are the text part alone, or the text part followed by an
    inline-data part that holds both fields, both truthy. *)
Lemma contentsParts_cases userQuery base64Image mimeType :
  (truthy base64Image && truthy mimeType = false /\
   contentsParts userQuery base64Image mimeType = [VObj [("text", userQuery)]]) \/
  (truthy base64Image = true /\ truthy mimeType = true /\
   contentsParts userQuery base64Image mimeType =
     [VObj [("text", userQuery)];
      VObj [("inlineData", VObj [("mimeType", mimeType); ("data", base64Image)])]]).
Proof.
  unfold contentsParts. rewrite truthy_and_then.
  destruct (truthy base64Image), (truthy mimeType); simpl; auto.
Qed.

Lemma truthy_nonempty s : s <> "" -> truthy (VStr s) = true.
Proof. intros H. simpl. apply String.eqb_neq in H. rewrite H. reflexivity. Qed.

(** C6.  For a valid body whose [userQuery], [base64Image] and [mimeType]
    are all set (three strings; an image and its type are non-empty, the
    empty string being what C10 counts as missing), the payload holds
    exactly two parts, the text part and then the inline-data part with
    [mimeType] and [data] equal to the request's fields, and a
    [systemInstruction] whose single part is the fixed prompt; the one call
    of the invocation carries this payload serialised, field for field. *)
Theorem image_request_payload :
  forall apiKey net req props userQuery base64Image mimeType,
    method req = "POST" ->
    secret_set apiKey ->
    json req = Normal (VObj props) ->
    own_property "userQuery" props = VStr userQuery ->
    own_property "base64Image" props = VStr base64Image ->
    own_property "mimeType" props = VStr mimeType ->
    base64Image <> "" ->
    mimeType <> "" ->
    outbound_payload (VObj props) =
      VObj [("contents",
             VArr [VObj [("parts",
                          VArr [VObj [("text", VStr userQuery)];
                                VObj [("inlineData",
                                       VObj [("mimeType", VStr mimeType);
                                             ("data", VStr base64Image)])]])]]);
            ("systemInstruction",
             VObj [("parts", VArr [VObj [("text", VStr systemPrompt)]])])] /\
    fetches (snd (invoke apiKey net req)) =
      [(apiUrl apiKey,
        {| init_method := "POST";
           init_headers := [("Content-Type", "application/json")];
           init_body :=
             Some (JObject
                     [("contents",
                       JArray
                         [JObject
                            [("parts",
                              JArray
                                [JObject [("text", JString userQuery)];
                                 JObject
                                   [("inlineData",
                                     JObject [("mimeType", JString mimeType);
                                              ("data", JString base64Image)])]])]]);
                      ("systemInstruction",
                       JObject
                         [("parts",
                           JArray [JObject [("text", JString systemPrompt)]])])]) |})].
Proof.
  intros apiKey net req props userQuery base64Image mimeType
    Hm Hk Hj Hq Hi Ht Hi' Ht'.
  assert (E : outbound_payload (VObj props) =
              payload (VStr userQuery) (VStr base64Image) (VStr mimeType)).
  { unfold outbound_payload, opt_member. simpl. rewrite Hq, Hi, Ht. reflexivity. }
  assert (P : contentsParts (VStr userQuery) (VStr base64Image) (VStr mimeType) =
              [VObj [("text", VStr userQuery)];
               VObj [("inlineData",
                      VObj [("mimeType", VStr mimeType); ("data", VStr base64Image)])]]).
  { destruct (contentsParts_cases (VStr userQuery) (VStr base64Image) (VStr mimeType))
      as [[F _] | (_ & _ & P)]; [ | exact P ].
    rewrite (truthy_nonempty _ Hi'), (truthy_nonempty _ Ht') in F. discriminate F. }
  split.
  - rewrite E. unfold payload. rewrite P. reflexivity.
  - rewrite (upstream_called_once apiKey net req (VObj props) Hm Hk Hj eq_refl).
    rewrite E. unfold fetch_init, payload. rewrite P. reflexivity.
Qed.

Lemma image_request_payload_witness :
  outbound_payload
    (VObj [("userQuery", VStr "Solve the equation in the picture");
           ("base64Image", VStr "iVBORw0KGgoAAAANSUhEUg==");
           ("mimeType", VStr "image/png")]) =
    VObj [("contents",
           VArr [VObj [("parts",
                        VArr [VObj [("text", VStr "Solve the equation in the picture")];
                              VObj [("inlineData",
                                     VObj [("mimeType", VStr "image/png");
                                           ("data", VStr "iVBORw0KGgoAAAANSUhEUg==")])]])]]);
          ("systemInstruction",
           VObj [("parts", VArr [VObj [("text", VStr systemPrompt)]])])] /\
  fetches (snd (invoke Sample.secret Sample.unreachable Sample.image_request)) =
    [(apiUrl Sample.secret,
      {| init_method := "POST";
         init_headers := [("Content-Type", "application/json")];
         init_body :=
           Some (JObject
                   [("contents",
                     JArray
                       [JObject
                          [("parts",
                            JArray
                              [JObject
                                 [("text", JString "Solve the equation in the picture")];
                               JObject
                                 [("inlineData",
                                   JObject
                                     [("mimeType", JString "image/png");
                                      ("data", JString "iVBORw0KGgoAAAANSUhEUg==")])]])]]);
                    ("systemInstruction",
                     JObject
                       [("parts",
                         JArray [JObject [("text", JString systemPrompt)]])])]) |})].
Proof.
  apply (image_request_payload Sample.secret Sample.unreachable Sample.image_request
           [("userQuery", VStr "Solve the equation in the picture");
            ("base64Image", VStr "iVBORw0KGgoAAAANSUhEUg==");
            ("mimeType", VStr "image/png")]);
    try reflexivity; discriminate.
Defined.

(** C7.  For a body in which only [userQuery] is set, [base64Image] and
    [mimeType] being absent, the payload holds exactly one part, the text
    part carrying [userQuery], and no inline-data part; the one call of the
    invocation carries this payload serialised. *)
Theorem text_request_payload :
  forall apiKey net req props userQuery,
    method req = "POST" ->
    secret_set apiKey ->
    json req = Normal (VObj props) ->
    own_property "userQuery" props = VStr userQuery ->
    own_property "base64Image" props = VUndefined ->
    own_property "mimeType" props = VUndefined ->
    outbound_payload (VObj props) =
      VObj [("contents",
             VArr [VObj [("parts", VArr [VObj [("text", VStr userQuery)]])]]);
            ("systemInstruction",
             VObj [("parts", VArr [VObj [("text", VStr systemPrompt)]])])] /\
    fetches (snd (invoke apiKey net req)) =
      [(apiUrl apiKey,
        {| init_method := "POST";
           init_headers := [("Content-Type", "application/json")];
           init_body :=
             Some (JObject
                     [("contents",
                       JArray
                         [JObject
                            [("parts", JArray [JObject [("text", JString userQuery)]])]]);
                      ("systemInstruction",
                       JObject
                         [("parts",
                           JArray [JObject [("text", JString systemPrompt)]])])]) |})].
Proof.
  intros apiKey net req props userQuery Hm Hk Hj Hq Hi Ht.
  assert (E : outbound_payload (VObj props) =
              payload (VStr userQuery) VUndefined VUndefined).
  { unfold outbound_payload, opt_member. simpl. rewrite Hq, Hi, Ht. reflexivity. }
  split.
  - rewrite E. reflexivity.
  - rewrite (upstream_called_once apiKey net req (VObj props) Hm Hk Hj eq_refl).
    rewrite E. reflexivity.
Qed.

Lemma text_request_payload_witness :
  outbound_payload (VObj [("userQuery", VStr "Solve 2x + 3 = 7")]) =
    VObj [("contents",
           VArr [VObj [("parts", VArr [VObj [("text", VStr "Solve 2x + 3 = 7")]])]]);
          ("systemInstruction",
           VObj [("parts", VArr [VObj [("text", VStr systemPrompt)]])])] /\
  fetches (snd (invoke Sample.secret (Sample.answering Sample.quota_answer)
                  Sample.text_request)) =
    [(apiUrl Sample.secret,
      {| init_method := "POST";
         init_headers := [("Content-Type", "application/json")];
         init_body :=
           Some (JObject
                   [("contents",
                     JArray
                       [JObject
                          [("parts",
                            JArray [JObject [("text", JString "Solve 2x + 3 = 7")]])]]);
                    ("systemInstruction",
                     JObject
                       [("parts",
                         JArray [JObject [("text", JString systemPrompt)]])])]) |})].
Proof.
  apply (text_request_payload Sample.secret (Sample.answering Sample.quota_answer)
           Sample.text_request [("userQuery", VStr "Solve 2x + 3 = 7")]);
    reflexivity.
Defined.

(** C10.  For a body (any value that can be destructured) in which
    [base64Image] or [mimeType] is falsy (absent, [null], the empty string,
    [false], a zero), the payload holds the text part alone, carrying
    [userQuery] as it is, and the one call of the invocation carries that
    payload.  More generally the parts built from any three values are the
    text part alone, or the text part and an inline-data part holding both
    fields, both truthy: no inline-data part with one field only is built. *)
Theorem inline_data_needs_both_fields :
  forall apiKey net req body,
    method req = "POST" ->
    secret_set apiKey ->
    json req = Normal body ->
    nullish body = false ->
    truthy (opt_member body "base64Image") && truthy (opt_member body "mimeType") = false ->
    outbound_payload body =
      VObj [("contents",
             VArr [VObj [("parts", VArr [VObj [("text", opt_member body "userQuery")]])]]);
            ("systemInstruction",
             VObj [("parts", VArr [VObj [("text", VStr systemPrompt)]])])] /\
    fetches (snd (invoke apiKey net req)) =
      [(apiUrl apiKey,
        {| init_method := "POST";
           init_headers := [("Content-Type", "application/json")];
           init_body := JSON_stringify (outbound_payload body) |})] /\
    (forall userQuery base64Image mimeType,
       contentsParts userQuery base64Image mimeType = [VObj [("text", userQuery)]] \/
       (truthy base64Image = true /\ truthy mimeType = true /\
        contentsParts userQuery base64Image mimeType =
          [VObj [("text", userQuery)];
           VObj [("inlineData",
                  VObj [("mimeType", mimeType); ("data", base64Image)])]])).
Proof.
  intros apiKey net req body Hm Hk Hj Hb Hfalsy.
  split; [ | split ].
  - unfold outbound_payload, payload.
    destruct (contentsParts_cases (opt_member body "userQuery")
                (opt_member body "base64Image") (opt_member body "mimeType"))
      as [[_ P] | (Hi & Ht & _)].
    + rewrite P. reflexivity.
    + rewrite Hi, Ht in Hfalsy. discriminate Hfalsy.
  - apply upstream_called_once; assumption.
  - intros userQuery base64Image mimeType.
    destruct (contentsParts_cases userQuery base64Image mimeType)
      as [[_ P] | P]; [ left; exact P | right; exact P ].
Qed.

Lemma inline_data_needs_both_fields_witness :
  outbound_payload
    (VObj [("userQuery", VStr "Solve the equation in the picture");
           ("base64Image", VStr "iVBORw0KGgoAAAANSUhEUg==");
           ("mimeType", VStr "")]) =
    VObj [("contents",
           VArr [VObj [("parts",
                        VArr [VObj [("text",
                                     VStr "Solve the equation in the picture")]])]]);
          ("systemInstruction",
           VObj [("parts", VArr [VObj [("text", VStr systemPrompt)]])])] /\
  fetches (snd (invoke Sample.secret Sample.garbled Sample.partial_request)) =
    [(apiUrl Sample.secret,
      {| init_method := "POST";
         init_headers := [("Content-Type", "application/json")];
         init_body :=
           JSON_stringify
             (outbound_payload
                (VObj [("userQuery", VStr "Solve the equation in the picture");
                       ("base64Image", VStr "iVBORw0KGgoAAAANSUhEUg==");
                       ("mimeType", VStr "")])) |})] /\
  (forall userQuery base64Image mimeType,
     contentsParts userQuery base64Image mimeType = [VObj [("text", userQuery)]] \/
     (truthy base64Image = true /\ truthy mimeType = true /\
      contentsParts userQuery base64Image mimeType =
        [VObj [("text", userQuery)];
         VObj [("inlineData",
                VObj [("mimeType", mimeType); ("data", base64Image)])]])).
Proof.
  apply (inline_data_needs_both_fields Sample.secret Sample.garbled
           Sample.partial_request
           (VObj [("userQuery", VStr "Solve the equation in the picture");
                  ("base64Image", VStr "iVBORw0KGgoAAAANSUhEUg==");
                  ("mimeType", VStr "")]));
    reflexivity.
Defined.

(** An empty image with a type: the empty string is falsy, so the text part
    goes alone. *)
Example empty_image_run :
  outbound_payload
    (VObj [("userQuery", VStr "Solve 2x + 3 = 7"); ("base64Image", VStr "");
           ("mimeType", VStr "image/png")]) =
    outbound_payload (VObj [("userQuery", VStr "Solve 2x + 3 = 7")]).
Proof. reflexivity. Qed.

(** A body that cannot be destructured has no payload: nothing is sent. *)
Example null_body_run :
  invoke Sample.secret (Sample.answering Sample.solution_answer)
    {| method := "POST"; json := Normal VNull |} =
    (Normal internal_error, [log_failure TypeError]).
Proof. reflexivity. Qed.

(** A body without [userQuery]: the text part carries [undefined], and its
    serialisation is the empty object. *)
Example missing_query_run :
  fetches (snd (invoke Sample.secret Sample.unreachable
                  {| method := "POST"; json := Normal (VObj []) |})) =
    [(apiUrl Sample.secret,
      {| init_method := "POST";
         init_headers := [("Content-Type", "application/json")];
         init_body :=
           Some (JObject
                   [("contents", JArray [JObject [("parts", JArray [JObject []])]]);
                    ("systemInstruction",
                     JObject
                       [("parts",
                         JArray [JObject [("text", JString systemPrompt)]])])]) |})].
Proof. reflexivity. Qed.

(* ------------------------------------------------------------------ *)
(** *** The upstream-error answer *)
(* ------------------------------------------------------------------ *)

Lemma reported_message_error_message r m :
  reported_message r m -> error_message r = VStr m.
Proof.
  intros [m' E Hne | F]; unfold error_message, or_else.
  - rewrite E, (truthy_nonempty _ Hne). reflexivity.
  - rewrite F. reflexivity.
Qed.

(** The upstream answer [{ "error": { "message": 404 } }] has no candidate;
    its message is a number, on which [substring] is no function: the call
    throws, and the [catch] block answers with the internal-error message. *)
Example numeric_error_message_run :
  invoke Sample.secret (Sample.answering Sample.numeric_error_answer)
    Sample.text_request =
    (Normal internal_error,
     [upstream_call Sample.secret (VObj [("userQuery", VStr "Solve 2x + 3 = 7")]);
      log_upstream (VNum 404) Sample.numeric_error_answer;
      log_failure TypeError]).
Proof. reflexivity. Qed.

(** The upstream answer [null] has no candidate either; reading
    [geminiResult.candidates] throws. *)
Example null_answer_run :
  invoke Sample.secret (Sample.answering VNull) Sample.text_request =
    (Normal internal_error,
     [upstream_call Sample.secret (VObj [("userQuery", VStr "Solve 2x + 3 = 7")]);
      log_failure TypeError]).
Proof. reflexivity. Qed.

(** C2 (counterexample).  The claim fails on the upstream answer
    [{ "error": { "message": 404 } }]: no candidate, and yet the answer is
    [{ message: "Internal server error during computation." }]. *)
Lemma upstream_content_error_claim_fails : ~ upstream_content_error_claim.
Proof.
  intros claim.
  destruct (claim Sample.secret (Sample.answering Sample.numeric_error_answer)
              Sample.text_request (VObj [("userQuery", VStr "Solve 2x + 3 = 7")])
              {| response_json := Normal Sample.numeric_error_answer |}
              Sample.numeric_error_answer
              eq_refl eq_refl eq_refl eq_refl eq_refl eq_refl eq_refl)
    as [solution H].
  rewrite numeric_error_message_run in H. discriminate H.
Qed.

(** C2 (amended).  On a POST invocation with the secret set that gets an
    upstream answer other than [null], if the first candidate has no usable
    text and the upstream error message is a non-empty string or is missing,
    the answer is 500 with body
    [{ solution: "$$ \text{API Error: } \text{" + shown + "...} $$" }], where
    [shown] is the first 50 characters of the reported message (the upstream
    message, or "Model returned no content." when there is none): [shown]
    is a prefix of the message, of length [min 50 (length message)]. *)
Theorem upstream_content_error :
  forall apiKey net req body geminiResponse geminiResult message,
    method req = "POST" ->
    secret_set apiKey ->
    json req = Normal body ->
    nullish body = false ->
    net (apiUrl apiKey) (fetch_init (outbound_payload body)) = Normal geminiResponse ->
    response_json geminiResponse = Normal geminiResult ->
    nullish geminiResult = false ->
    truthy (first_candidate_text geminiResult) = false ->
    reported_message geminiResult message ->
    exists shown,
      fst (invoke apiKey net req) =
        Normal {| status := 500;
                  body := VObj [("solution",
                                 VStr ("$$ \text{API Error: } \text{" ++ shown
                                       ++ "...} $$"))] |} /\
      String.length shown = Nat.min 50 (String.length message) /\
      (exists rest, message = shown ++ rest).
Proof.
  intros apiKey net req body geminiResponse geminiResult message
    Hm Hk Hj Hb Hn Hr Hnull Ht Hmsg.
  exists (substring message 0 50).
  rewrite (path_upstream_error apiKey net req Hm Hk body Hj Hb geminiResponse Hn
             geminiResult Hr message Hnull Ht
             (reported_message_error_message _ _ Hmsg)).
  split; [ reflexivity | ]. apply substring_first.
Qed.

Lemma upstream_content_error_witness :
  exists shown,
    fst (invoke Sample.secret (Sample.answering Sample.quota_answer)
           Sample.text_request) =
      Normal {| status := 500;
                body := VObj [("solution",
                               VStr ("$$ \text{API Error: } \text{" ++ shown
                                     ++ "...} $$"))] |} /\
    String.length shown =
      Nat.min 50
        (String.length
           "Resource has been exhausted (e.g. check quota). Please retry later.") /\
    (exists rest,
       "Resource has been exhausted (e.g. check quota). Please retry later." =
         shown ++ rest).
Proof.
  apply (upstream_content_error Sample.secret (Sample.answering Sample.quota_answer)
           Sample.text_request (VObj [("userQuery", VStr "Solve 2x + 3 = 7")])
           {| response_json := Normal Sample.quota_answer |} Sample.quota_answer);
    try reflexivity.
  apply report_upstream; [ reflexivity | discriminate ].
Defined.

(* ------------------------------------------------------------------ *)
(** *** One status for three kinds of error *)
(* ------------------------------------------------------------------ *)



(* ================================================================== *)
(** ** Further properties of the handler *)
(* ================================================================== *)

Lemma upstream_outcome_total apiKey net body :
  exists r rest, upstream_outcome apiKey net body r rest.
Proof.
  destruct (net (apiUrl apiKey) (fetch_init (outbound_payload body)))
    as [geminiResponse | e] eqn:Hn.
  2:{ eexists _, _. apply outcome_fetch_rejected. exact Hn. }
  destruct (response_json geminiResponse) as [geminiResult | e] eqn:Hr.
  2:{ eexists _, _. eapply outcome_decoding_rejected; eassumption. }
  destruct (nullish geminiResult) eqn:Hnull.
  { eexists _, _. eapply outcome_nullish; eassumption. }
  destruct (truthy (first_candidate_text geminiResult)) eqn:Ht.
  { eexists _, _. eapply outcome_solved; eassumption. }
  destruct (error_message_cases geminiResult) as [[m He] | He].
  - eexists _, _. eapply outcome_upstream_error; eassumption.
  - eexists _, _. eapply outcome_not_a_string; eassumption.
Qed.

Lemma upstream_outcome_run apiKey net req body r rest :
  method req = "POST" ->
  secret_set apiKey ->
  json req = Normal body ->
  nullish body = false ->
  upstream_outcome apiKey net body r rest ->
  invoke apiKey net req = (Normal r, upstream_call apiKey body :: rest).
Proof.
  intros Hm Hk Hj Hb H.
  destruct H as [e Hn | resp e Hn Hr | resp g Hn Hr Hnull | resp g Hn Hr Ht
                | resp g m Hn Hr Hnull Ht He | resp g Hn Hr Hnull Ht He].
  - apply path_fetch_rejected; assumption.
  - eapply path_decoding_rejected; eassumption.
  - eapply path_result_nullish; eassumption.
  - eapply path_solved; eassumption.
  - eapply path_upstream_error; eassumption.
  - eapply path_message_not_a_string; eassumption.
Qed.

(** The outcome depends on the secret and on the body only through what
    the network answers to the call. *)
Lemma upstream_outcome_transfer apiKey1 apiKey2 net1 net2 body1 body2 r rest :
  net1 (apiUrl apiKey1) (fetch_init (outbound_payload body1)) =
    net2 (apiUrl apiKey2) (fetch_init (outbound_payload body2)) ->
  upstream_outcome apiKey1 net1 body1 r rest ->
  upstream_outcome apiKey2 net2 body2 r rest.
Proof.
  intros E H.
  destruct H as [e Hn | resp e Hn Hr | resp g Hn Hr Hnull | resp g Hn Hr Ht
                | resp g m Hn Hr Hnull Ht He | resp g Hn Hr Hnull Ht He];
    rewrite E in Hn.
  - apply outcome_fetch_rejected; assumption.
  - eapply outcome_decoding_rejected; eassumption.
  - eapply outcome_nullish; eassumption.
  - eapply outcome_solved; eassumption.
  - eapply outcome_upstream_error; eassumption.
  - eapply outcome_not_a_string; eassumption.
Qed.

(** Every invocation stops early, or makes the call and ends in one of the
    upstream outcomes. *)
Lemma run_cases apiKey net req :
  (exists r t, invoke apiKey net req = (Normal r, t) /\ stopped_early apiKey req r t) \/
  (exists body r rest,
     method req = "POST" /\ secret_set apiKey /\
     json req = Normal body /\ nullish body = false /\
     invoke apiKey net req = (Normal r, upstream_call apiKey body :: rest) /\
     upstream_outcome apiKey net body r rest).
Proof.
  destruct (invoke_cases apiKey net req) as [H | (body & Hm & Hk & Hj & Hb)];
    [ left; exact H | right ].
  destruct (upstream_outcome_total apiKey net body) as (r & rest & H).
  exists body, r, rest. repeat (split; [ assumption | ]).
  split; [ | exact H ]. apply upstream_outcome_run; assumption.
Qed.

Lemma length_append (a b : string) :
  String.length (a ++ b) = String.length a + String.length b.
Proof. induction a as [ | c a IH ]; simpl; [ reflexivity | rewrite IH; reflexivity ]. Qed.

(** X1.  The handler writes on the error console exactly when it answers
    500: an invocation answered 405 or 200 logs nothing, and every
    invocation answered 500 logs at least one line. *)
Theorem logs_exactly_on_500 :
  forall apiKey net req,
    exists r t,
      invoke apiKey net req = (Normal r, t) /\
      (status r = 500 -> console_lines t <> []) /\
      (status r <> 500 -> console_lines t = []).
Proof.
  intros apiKey net req.
  destruct (run_cases apiKey net req)
    as [(r & t & E & Hstop) | (body & r & rest & _ & _ & _ & _ & E & Hout)].
  - exists r, t. split; [ exact E | ].
    destruct Hstop; simpl; split; intros Hcode; try reflexivity; try discriminate;
      try (exfalso; apply Hcode; reflexivity).
  - exists r, (upstream_call apiKey body :: rest). split; [ exact E | ].
    destruct Hout; simpl; split; intros Hcode; try reflexivity; try discriminate;
      try (exfalso; apply Hcode; reflexivity).
Qed.

(** X2.  A 200 answer comes from the upstream service only: if an
    invocation is answered 200, then the method was POST, the secret was
    set, the body was decoded, the one call was answered with JSON whose
    first-candidate text is truthy, the solution is that text, and the call
    is the only event of the invocation. *)
Theorem success_comes_from_upstream :
  forall apiKey net req r,
    fst (invoke apiKey net req) = Normal r ->
    status r = 200 ->
    exists body geminiResponse geminiResult,
      method req = "POST" /\ secret_set apiKey /\
      json req = Normal body /\
      net (apiUrl apiKey) (fetch_init (outbound_payload body)) = Normal geminiResponse /\
      response_json geminiResponse = Normal geminiResult /\
      truthy (first_candidate_text geminiResult) = true /\
      r = {| status := 200;
             body := VObj [("solution", first_candidate_text geminiResult)] |} /\
      snd (invoke apiKey net req) =
        [Fetch (apiUrl apiKey) (fetch_init (outbound_payload body))].
Proof.
  intros apiKey net req r Hr Hs.
  destruct (run_cases apiKey net req)
    as [(r' & t & E & Hstop) | (body & r' & rest & Hm & Hk & Hj & Hb & E & Hout)];
    rewrite E in Hr; simpl in Hr; injection Hr as Hr; subst r'.
  - destruct Hstop; discriminate Hs.
  - destruct Hout as [e Hn | resp e Hn Hj' | resp g Hn Hj' Hnull | resp g Hn Hj' Ht
                     | resp g m Hn Hj' Hnull Ht He | resp g Hn Hj' Hnull Ht He];
      try discriminate Hs.
    exists body, resp, g. rewrite E. repeat (split; [ assumption | ]).
    split; reflexivity.
Qed.

Lemma success_comes_from_upstream_witness :
  exists body geminiResponse geminiResult,
    method Sample.text_request = "POST" /\ secret_set Sample.secret /\
    json Sample.text_request = Normal body /\
    Sample.answering Sample.solution_answer (apiUrl Sample.secret)
      (fetch_init (outbound_payload body)) = Normal geminiResponse /\
    response_json geminiResponse = Normal geminiResult /\
    truthy (first_candidate_text geminiResult) = true /\
    solved (VStr "$$ x = 2 $$") =
      {| status := 200;
         body := VObj [("solution", first_candidate_text geminiResult)] |} /\
    snd (invoke Sample.secret (Sample.answering Sample.solution_answer)
           Sample.text_request) =
      [Fetch (apiUrl Sample.secret) (fetch_init (outbound_payload body))].
Proof.
  apply (success_comes_from_upstream Sample.secret
           (Sample.answering Sample.solution_answer) Sample.text_request
           (solved (VStr "$$ x = 2 $$"))); reflexivity.
Defined.

(** X3.  The secret reaches nothing but the address of the call: for two
    non-empty secrets and a network that answers the two calls alike, the
    answers are the same, the console lines are the same, and the calls
    differ at most in their address. *)
Theorem secret_only_in_call_address :
  forall k1 k2 net req,
    k1 <> "" ->
    k2 <> "" ->
    (forall init, net (apiUrl (Some k1)) init = net (apiUrl (Some k2)) init) ->
    fst (invoke (Some k1) net req) = fst (invoke (Some k2) net req) /\
    console_lines (snd (invoke (Some k1) net req)) =
      console_lines (snd (invoke (Some k2) net req)) /\
    map snd (fetches (snd (invoke (Some k1) net req))) =
      map snd (fetches (snd (invoke (Some k2) net req))).
Proof.
  intros k1 k2 net req H1 H2 Hnet.
  assert (S1 : secret_set (Some k1)) by (apply truthy_nonempty; exact H1).
  assert (S2 : secret_set (Some k2)) by (apply truthy_nonempty; exact H2).
  destruct (run_cases (Some k1) net req)
    as [(r & t & E & Hstop) | (body & r & rest & Hm & _ & Hj & Hb & E & Hout)].
  - assert (E2 : invoke (Some k2) net req = (Normal r, t)).
    { destruct Hstop as [Hm | Hm Hk | e Hm Hk Hj | body Hm Hk Hj Hb].
      - apply path_method_not_allowed; exact Hm.
      - unfold secret_set in S1. congruence.
      - apply path_body_rejected; assumption.
      - eapply path_body_nullish; eassumption. }
    rewrite E, E2. auto.
  - rewrite E.
    rewrite (upstream_outcome_run (Some k2) net req body r rest Hm S2 Hj Hb
               (upstream_outcome_transfer _ _ _ _ _ _ _ _ (Hnet _) Hout)).
    simpl. auto.
Qed.

Lemma secret_only_in_call_address_witness :
  fst (invoke (Some "key-one") (Sample.answering Sample.quota_answer)
         Sample.image_request) =
    fst (invoke (Some "key-two") (Sample.answering Sample.quota_answer)
           Sample.image_request) /\
  console_lines (snd (invoke (Some "key-one") (Sample.answering Sample.quota_answer)
                        Sample.image_request)) =
    console_lines (snd (invoke (Some "key-two") (Sample.answering Sample.quota_answer)
                          Sample.image_request)) /\
  map snd (fetches (snd (invoke (Some "key-one")
                           (Sample.answering Sample.quota_answer)
                           Sample.image_request))) =
    map snd (fetches (snd (invoke (Some "key-two")
                             (Sample.answering Sample.quota_answer)
                             Sample.image_request))).
Proof.
  apply (secret_only_in_call_address "key-one" "key-two"
           (Sample.answering Sample.quota_answer) Sample.image_request).
  - discriminate.
  - discriminate.
  - intros init. reflexivity.
Defined.

(** X4.  The upstream-error answer is short whatever the upstream service
    sends: when an invocation is answered 500 with a [{ solution: s }]
    body, [s] is the 28 characters of the opening markup, at most 50
    characters of message, and the 7 characters ["...} $$"], so its length
    lies between 35 and 85. *)
Theorem upstream_error_text_is_bounded :
  forall apiKey net req r s,
    fst (invoke apiKey net req) = Normal r ->
    status r = 500 ->
    body r = VObj [("solution", VStr s)] ->
    exists shown,
      s = "$$ \text{API Error: } \text{" ++ shown ++ "...} $$" /\
      String.length shown <= 50 /\
      35 <= String.length s <= 85.
Proof.
  intros apiKey net req r s Hr Hs Hbody.
  destruct (run_cases apiKey net req)
    as [(r' & t & E & Hstop) | (b & r' & rest & _ & _ & _ & _ & E & Hout)];
    rewrite E in Hr; simpl in Hr; injection Hr as Hr; subst r'.
  - destruct Hstop; discriminate Hbody.
  - destruct Hout as [e Hn | resp e Hn Hj' | resp g Hn Hj' Hnull | resp g Hn Hj' Ht
                     | resp g m Hn Hj' Hnull Ht He | resp g Hn Hj' Hnull Ht He];
      try discriminate Hbody; try discriminate Hs.
    simpl in Hbody. injection Hbody as Hbody. subst s.
    exists (substring m 0 50).
    destruct (substring_first 50 m) as [Hlen _].
    split; [ reflexivity | ]. split; [ lia | ].
    unfold api_error_markup. rewrite !length_append. simpl String.length. lia.
Qed.

Lemma upstream_error_text_is_bounded_witness :
  exists shown,
    "$$ \text{API Error: } \text{Resource has been exhausted (e.g. check quota). Pl...} $$" =
      "$$ \text{API Error: } \text{" ++ shown ++ "...} $$" /\
    String.length shown <= 50 /\
    35 <=
    String.length
      "$$ \text{API Error: } \text{Resource has been exhausted (e.g. check quota). Pl...} $$"
    <= 85.
Proof.
  apply (upstream_error_text_is_bounded Sample.secret
           (Sample.answering Sample.quota_answer) Sample.text_request
           (upstream_error "Resource has been exhausted (e.g. check quota). Pl"));
    reflexivity.
Defined.

(** X5.  Of an upstream answer the handler reads the text of the first
    part of the first candidate and the error message, nothing else: two
    answers (other than [null]) that agree on these two get the same
    answer from the handler.  Further parts and further candidates, with or
    without text, change nothing. *)
Theorem only_first_text_and_error_matter :
  forall apiKey net1 net2 req body geminiResponse1 geminiResponse2
         geminiResult1 geminiResult2,
    method req = "POST" ->
    secret_set apiKey ->
    json req = Normal body ->
    nullish body = false ->
    net1 (apiUrl apiKey) (fetch_init (outbound_payload body)) = Normal geminiResponse1 ->
    response_json geminiResponse1 = Normal geminiResult1 ->
    net2 (apiUrl apiKey) (fetch_init (outbound_payload body)) = Normal geminiResponse2 ->
    response_json geminiResponse2 = Normal geminiResult2 ->
    nullish geminiResult1 = false ->
    nullish geminiResult2 = false ->
    first_candidate_text geminiResult1 = first_candidate_text geminiResult2 ->
    upstream_error_message geminiResult1 = upstream_error_message geminiResult2 ->
    fst (invoke apiKey net1 req) = fst (invoke apiKey net2 req).
Proof.
  intros apiKey net1 net2 req body resp1 resp2 g1 g2
    Hm Hk Hj Hb Hn1 Hr1 Hn2 Hr2 Hnull1 Hnull2 Htext Herr.
  assert (He : error_message g1 = error_message g2).
  { unfold error_message. rewrite Herr. reflexivity. }
  destruct (truthy (first_candidate_text g1)) eqn:Ht1.
  - assert (Ht2 : truthy (first_candidate_text g2) = true) by (rewrite <- Htext; exact Ht1).
    rewrite (path_solved apiKey net1 req Hm Hk body Hj Hb resp1 Hn1 g1 Hr1 Ht1).
    rewrite (path_solved apiKey net2 req Hm Hk body Hj Hb resp2 Hn2 g2 Hr2 Ht2).
    simpl. rewrite Htext. reflexivity.
  - assert (Ht2 : truthy (first_candidate_text g2) = false) by (rewrite <- Htext; exact Ht1).
    destruct (error_message_cases g1) as [[m He1] | He1].
    + assert (He2 : error_message g2 = VStr m) by (rewrite <- He; exact He1).
      rewrite (path_upstream_error apiKey net1 req Hm Hk body Hj Hb resp1 Hn1 g1 Hr1
                 m Hnull1 Ht1 He1).
      rewrite (path_upstream_error apiKey net2 req Hm Hk body Hj Hb resp2 Hn2 g2 Hr2
                 m Hnull2 Ht2 He2).
      reflexivity.
    + assert (He2 : forall m, error_message g2 <> VStr m)
        by (intros m; rewrite <- He; apply He1).
      rewrite (path_message_not_a_string apiKey net1 req Hm Hk body Hj Hb resp1 Hn1
                 g1 Hr1 Hnull1 Ht1 He1).
      rewrite (path_message_not_a_string apiKey net2 req Hm Hk body Hj Hb resp2 Hn2
                 g2 Hr2 Hnull2 Ht2 He2).
      reflexivity.
Qed.

(** A text in the second part and a second candidate are as good as no
    candidate at all. *)
Lemma only_first_text_and_error_matter_witness :
  fst (invoke Sample.secret (Sample.answering Upstream.later_text_answer)
         Sample.text_request) =
    fst (invoke Sample.secret (Sample.answering Sample.empty_answer)
           Sample.text_request).
Proof.
  apply (only_first_text_and_error_matter Sample.secret
           (Sample.answering Upstream.later_text_answer)
           (Sample.answering Sample.empty_answer) Sample.text_request
           (VObj [("userQuery", VStr "Solve 2x + 3 = 7")])
           {| response_json := Normal Upstream.later_text_answer |}
           {| response_json := Normal Sample.empty_answer |}
           Upstream.later_text_answer Sample.empty_answer); reflexivity.
Defined.

Example later_text_answer_run :
  fst (invoke Sample.secret (Sample.answering Upstream.later_text_answer)
         Sample.text_request) =
    Normal (upstream_error "Model returned no content.").
Proof. reflexivity. Qed.

(** The serialisation of a payload: both members are always there, whatever
    the three values are. *)
Lemma payload_stringify userQuery base64Image mimeType :
  exists parts,
    JSON_stringify (payload userQuery base64Image mimeType) =
      Some (JObject
              [("contents", JArray [JObject [("parts", JArray parts)]]);
               ("systemInstruction",
                JObject [("parts", JArray [JObject [("text", JString systemPrompt)]])])]) /\
    length parts = length (contentsParts userQuery base64Image mimeType) /\
    hd_error parts =
      Some (JObject match JSON_stringify userQuery with
                    | Some j => [("text", j)]
                    | None => []
                    end).
Proof.
  eexists. split; [ unfold payload; simpl; reflexivity | ].
  split.
  - rewrite length_map. reflexivity.
  - destruct (contentsParts_cases userQuery base64Image mimeType)
      as [[_ P] | (_ & _ & P)]; rewrite P; simpl;
      destruct (JSON_stringify userQuery); reflexivity.
Qed.

(** X6.  Whatever the request holds, the body of a call made by the
    handler is a JSON object with exactly the members [contents] and
    [systemInstruction], in this order; [systemInstruction] is the fixed
    prompt, and [contents] is one entry with one or two parts.  What the
    request sends lands under [contents] only and cannot replace or extend
    the system instruction. *)
Theorem system_instruction_is_fixed :
  forall apiKey net req url init,
    In (url, init) (fetches (snd (invoke apiKey net req))) ->
    exists parts,
      init_body init =
        Some (JObject
                [("contents", JArray [JObject [("parts", JArray parts)]]);
                 ("systemInstruction",
                  JObject
                    [("parts", JArray [JObject [("text", JString systemPrompt)]])])]) /\
      (length parts = 1 \/ length parts = 2).
Proof.
  intros apiKey net req url init Hin.
  destruct (run_cases apiKey net req)
    as [(r & t & E & Hstop) | (b & r & rest & Hm & Hk & Hj & Hb & _ & _)].
  - rewrite E in Hin. destruct Hstop; simpl in Hin; contradiction.
  - rewrite (upstream_called_once apiKey net req b Hm Hk Hj Hb) in Hin.
    destruct Hin as [Hin | []]. injection Hin as _ Hinit. subst init.
    destruct (payload_stringify (opt_member b "userQuery") (opt_member b "base64Image")
                (opt_member b "mimeType")) as (parts & Ebody & Hlen & _).
    exists parts. split; [ exact Ebody | ].
    rewrite Hlen.
    destruct (contentsParts_cases (opt_member b "userQuery")
                (opt_member b "base64Image") (opt_member b "mimeType"))
      as [[_ P] | (_ & _ & P)]; rewrite P; simpl; auto.
Qed.

Lemma system_instruction_is_fixed_witness :
  exists parts,
    init_body (fetch_init (outbound_payload
                             (VObj [("userQuery", VStr "Solve 2x + 3 = 7")]))) =
      Some (JObject
              [("contents", JArray [JObject [("parts", JArray parts)]]);
               ("systemInstruction",
                JObject
                  [("parts", JArray [JObject [("text", JString systemPrompt)]])])]) /\
    (length parts = 1 \/ length parts = 2).
Proof.
  apply (system_instruction_is_fixed Sample.secret Sample.unreachable
           Sample.text_request (apiUrl Sample.secret)).
  simpl. left. reflexivity.
Defined.

(** X7.  A body without [userQuery] is not rejected: the handler makes its
    one call all the same, and the text part it sends is the empty object
    (the [undefined] text is dropped by the serialisation), followed by the
    inline-data part when the body has one. *)
Theorem missing_query_is_sent_empty :
  forall apiKey net req body,
    method req = "POST" ->
    secret_set apiKey ->
    json req = Normal body ->
    nullish body = false ->
    opt_member body "userQuery" = VUndefined ->
    exists more,
      fetches (snd (invoke apiKey net req)) =
        [(apiUrl apiKey,
          {| init_method := "POST";
             init_headers := [("Content-Type", "application/json")];
             init_body :=
               Some (JObject
                       [("contents",
                         JArray [JObject [("parts", JArray (JObject [] :: more))]]);
                        ("systemInstruction",
                         JObject
                           [("parts",
                             JArray [JObject [("text", JString systemPrompt)]])])]) |})] /\
      length more <= 1.
Proof.
  intros apiKey net req body Hm Hk Hj Hb Hq.
  rewrite (upstream_called_once apiKey net req body Hm Hk Hj Hb).
  destruct (payload_stringify (opt_member body "userQuery")
              (opt_member body "base64Image") (opt_member body "mimeType"))
    as (parts & Ebody & Hlen & Hhd).
  rewrite Hq in Hhd. simpl in Hhd.
  destruct parts as [ | p more ]; [ discriminate Hhd | ].
  injection Hhd as Hp. subst p.
  exists more. unfold fetch_init. fold (outbound_payload body) in Ebody.
  rewrite Ebody. split; [ reflexivity | ].
  simpl in Hlen.
  destruct (contentsParts_cases (opt_member body "userQuery")
              (opt_member body "base64Image") (opt_member body "mimeType"))
    as [[_ P] | (_ & _ & P)]; rewrite P in Hlen; simpl in Hlen; lia.
Qed.

Lemma missing_query_is_sent_empty_witness :
  exists more,
    fetches (snd (invoke Sample.secret Sample.unreachable
                    Upstream.image_only_request)) =
      [(apiUrl Sample.secret,
        {| init_method := "POST";
           init_headers := [("Content-Type", "application/json")];
           init_body :=
             Some (JObject
                     [("contents",
                       JArray [JObject [("parts", JArray (JObject [] :: more))]]);
                      ("systemInstruction",
                       JObject
                         [("parts",
                           JArray [JObject [("text", JString systemPrompt)]])])]) |})] /\
    length more <= 1.
Proof.
  apply (missing_query_is_sent_empty Sample.secret Sample.unreachable
           Upstream.image_only_request
           (VObj [("base64Image", VStr "iVBORw0KGgoAAAANSUhEUg==");
                  ("mimeType", VStr "image/png")])); reflexivity.
Defined.

(** X8.  An upstream answer the error branch cannot read ends in the
    [catch] block: when the decoded answer is [null], or has no usable text
    and an error message that is truthy without being a string (a number, an
    object), the handler throws a [TypeError], logs it last and answers 500
    with [{ message: "Internal server error during computation." }]. *)
Theorem unreadable_answer_is_internal_error :
  forall apiKey net req body geminiResponse geminiResult,
    method req = "POST" ->
    secret_set apiKey ->
    json req = Normal body ->
    nullish body = false ->
    net (apiUrl apiKey) (fetch_init (outbound_payload body)) = Normal geminiResponse ->
    response_json geminiResponse = Normal geminiResult ->
    nullish geminiResult = true \/
    (truthy (first_candidate_text geminiResult) = false /\
     truthy (upstream_error_message geminiResult) = true /\
     forall m, upstream_error_message geminiResult <> VStr m) ->
    fst (invoke apiKey net req) =
      Normal {| status := 500;
                body := VObj [("message",
                               VStr "Internal server error during computation.")] |} /\
    exists before,
      snd (invoke apiKey net req) =
        (before ++
         [ConsoleError [LogValue (VStr "Backend processing failed:");
                        LogError TypeError]])%list.
Proof.
  intros apiKey net req body resp g Hm Hk Hj Hb Hn Hr [Hnull | (Ht & Hmsg & Hstr)].
  - rewrite (path_result_nullish apiKey net req Hm Hk body Hj Hb resp Hn g Hr Hnull).
    split; [ reflexivity | ]. exists [upstream_call apiKey body]. reflexivity.
  - assert (Hnull : nullish g = false).
    { apply truthy_not_nullish.
      apply (truthy_member_base g "error").
      apply (truthy_member_base _ "message"). exact Hmsg. }
    assert (He : forall m, error_message g <> VStr m).
    { intros m. unfold error_message, or_else. rewrite Hmsg. apply Hstr. }
    rewrite (path_message_not_a_string apiKey net req Hm Hk body Hj Hb resp Hn g Hr
               Hnull Ht He).
    split; [ reflexivity | ].
    exists [upstream_call apiKey body; log_upstream (error_message g) g]. reflexivity.
Qed.

Lemma unreadable_answer_is_internal_error_witness :
  fst (invoke Sample.secret (Sample.answering Upstream.structured_error_answer)
         Sample.text_request) =
    Normal {| status := 500;
              body := VObj [("message",
                             VStr "Internal server error during computation.")] |} /\
  exists before,
    snd (invoke Sample.secret (Sample.answering Upstream.structured_error_answer)
           Sample.text_request) =
      (before ++
       [ConsoleError [LogValue (VStr "Backend processing failed:");
                      LogError TypeError]])%list.
Proof.
  apply (unreadable_answer_is_internal_error Sample.secret
           (Sample.answering Upstream.structured_error_answer) Sample.text_request
           (VObj [("userQuery", VStr "Solve 2x + 3 = 7")])
           {| response_json := Normal Upstream.structured_error_answer |}
           Upstream.structured_error_answer); try reflexivity.
  right. split; [ reflexivity | ]. split; [ reflexivity | ].
  intros m. discriminate.
Defined.

(** X9.  Nothing of the request body comes back: for two POST requests
    with decoded bodies to which the network answers alike, the answers are
    the same and the console lines are the same.  The body reaches the
    payload of the call and nothing else. *)
Theorem body_only_in_call_payload :
  forall apiKey net req1 req2 body1 body2,
    method req1 = "POST" ->
    method req2 = "POST" ->
    secret_set apiKey ->
    json req1 = Normal body1 ->
    json req2 = Normal body2 ->
    nullish body1 = false ->
    nullish body2 = false ->
    net (apiUrl apiKey) (fetch_init (outbound_payload body1)) =
      net (apiUrl apiKey) (fetch_init (outbound_payload body2)) ->
    fst (invoke apiKey net req1) = fst (invoke apiKey net req2) /\
    console_lines (snd (invoke apiKey net req1)) =
      console_lines (snd (invoke apiKey net req2)).
Proof.
  intros apiKey net req1 req2 body1 body2 Hm1 Hm2 Hk Hj1 Hj2 Hb1 Hb2 Hnet.
  destruct (upstream_outcome_total apiKey net body1) as (r & rest & Hout).
  rewrite (upstream_outcome_run apiKey net req1 body1 r rest Hm1 Hk Hj1 Hb1 Hout).
  rewrite (upstream_outcome_run apiKey net req2 body2 r rest Hm2 Hk Hj2 Hb2
             (upstream_outcome_transfer _ _ _ _ _ _ _ _ Hnet Hout)).
  split; reflexivity.
Qed.

Lemma body_only_in_call_payload_witness :
  fst (invoke Sample.secret (Sample.answering Sample.numeric_error_answer)
         Sample.text_request) =
    fst (invoke Sample.secret (Sample.answering Sample.numeric_error_answer)
           Sample.image_request) /\
  console_lines (snd (invoke Sample.secret
                        (Sample.answering Sample.numeric_error_answer)
                        Sample.text_request)) =
    console_lines (snd (invoke Sample.secret
                          (Sample.answering Sample.numeric_error_answer)
                          Sample.image_request)).
Proof.
  apply (body_only_in_call_payload Sample.secret
           (Sample.answering Sample.numeric_error_answer)
           Sample.text_request Sample.image_request
           (VObj [("userQuery", VStr "Solve 2x + 3 = 7")])
           (VObj [("userQuery", VStr "Solve the equation in the picture");
                  ("base64Image", VStr "iVBORw0KGgoAAAANSUhEUg==");
                  ("mimeType", VStr "image/png")])); reflexivity.
Defined.
